(** * ckan/new_tests/helpers.py: test helper functions of CKAN

    A shallow embedding of the helpers of [ckan.new_tests.helpers] and the
    properties its specification states about them.

    - Python values are the inductive [pyval]; dicts are finite maps from
      strings, living in a store of dict objects so that aliasing of a
      context dict between caller, helper and callee is visible.
    - Exceptions are the [Raise] results of the type [res].
    - The field objects of a webtest form are a tagged union of the classes
      the helper can tell apart. *)

From Stdlib Require Import ZArith.
From stdpp Require Import base option list strings gmap fin_maps.

Local Open Scope string_scope.
Local Open Scope list_scope.
Local Open Scope Z_scope.

(* ===================================================================== *)
(** ** Python values *)
(* ===================================================================== *)

#[local] Set Warnings "-register-all".

(** The values that occur in forms, contexts and the configuration.
    [VObj] is an opaque object compared by identity (a model handle, an
    application). *)
Inductive pyval :=
| VNone
| VBool (b : bool)
| VStr (s : string)
| VList (l : list pyval)
| VObj (id : nat).

(** Python's [==] on these values. *)
Fixpoint pyval_eqb (a b : pyval) : bool :=
  match a, b with
  | VNone, VNone => true
  | VBool x, VBool y => Bool.eqb x y
  | VStr x, VStr y => String.eqb x y
  | VList xs, VList ys =>
      (fix go (xs ys : list pyval) : bool :=
         match xs, ys with
         | [], [] => true
         | x :: xs', y :: ys' => pyval_eqb x y && go xs' ys'
         | _, _ => false
         end) xs ys
  | VObj i, VObj j => Nat.eqb i j
  | _, _ => false
  end.

Section pyval_induction.
Variable P : pyval -> Prop.
Hypothesis HNone : P VNone.
Hypothesis HBool : forall b, P (VBool b).
Hypothesis HStr : forall s, P (VStr s).
Hypothesis HList : forall l, Forall P l -> P (VList l).
Hypothesis HObj : forall id, P (VObj id).

(** Induction on values, with the hypothesis for every element of a
    list value. *)
Fixpoint pyval_nested_ind (v : pyval) : P v :=
  match v with
  | VNone => HNone
  | VBool b => HBool b
  | VStr s => HStr s
  | VList l =>
      HList l
        ((fix all (l : list pyval) : Forall P l :=
            match l with
            | [] => @List.Forall_nil _ P
            | x :: r => @List.Forall_cons _ P x r (pyval_nested_ind x) (all r)
            end) l)
  | VObj id => HObj id
  end.
End pyval_induction.

(** [value is None] *)
Definition is_None (v : pyval) : bool :=
  match v with VNone => true | _ => false end.

(* ===================================================================== *)
(** ** Exceptions and results *)
(* ===================================================================== *)

Inductive exn :=
| ValueError (msg : string)
| AssertionError (msg : string)
| AttributeError (attr : string)
| KeyError (key : string)
| OtherError (what : string).

Inductive res (A : Type) :=
| Ok (a : A)
| Raise (e : exn).
Arguments Ok {A} a.
Arguments Raise {A} e.

(** Sequencing: an exception ends the computation. *)
#[global] Instance res_ret : MRet res := fun _ a => Ok a.
#[global] Instance res_bind : MBind res := fun _ _ k m =>
  match m with
  | Ok a => k a
  | Raise e => Raise e
  end.

(* ===================================================================== *)
(** ** webtest forms *)
(* ===================================================================== *)

Module Webtest.

(** The field objects come from the webtest library. Its field classes,
    as far as [webtest_submit_fields] can tell them apart:
    - [Submit]: a submit button. Its [value] property is always [None];
      the value sent when the button is pressed is what
      [value_if_submitted()] returns, [None] for a button without a value
      attribute.
    - [File]: a file-upload field ([webtest.app.File]), with its [value].
    - [Field]: every other field class (text, hidden, select, checkbox,
      ...), with its [value]: [None], a string or a list. Only buttons
      have a [value_if_submitted] method. *)
Inductive field :=
| Submit (_value : pyval)
| File (value : pyval)
| Field (value : pyval).

(** [field.value] *)
Definition value (f : field) : pyval :=
  match f with
  | Submit _ => VNone
  | File v => v
  | Field v => v
  end.

(** [field.value_if_submitted()] *)
Definition value_if_submitted (f : field) : res pyval :=
  match f with
  | Submit v => Ok v
  | _ => Raise (AttributeError "value_if_submitted")
  end.

(** [isinstance(field, File)] *)
Definition isinstance_File (f : field) : bool :=
  match f with File _ => true | _ => false end.

Definition is_Submit (f : field) : bool :=
  match f with Submit _ => true | _ => false end.

(** A form: [field_order] lists the (name, field) pairs in declaration
    order; a field without a name attribute has the name [None]. *)
Record form := { field_order : list (option string * field) }.

(** What is appended to the list [submit]: a value, or, for file uploads,
    the field object itself. *)
Inductive item :=
| IVal (v : pyval)
| IField (f : field).

Definition entry : Type := string * item.

(** The local variables of [webtest_submit_fields] that the loop updates. *)
Record locals := { submit : list entry; current_index : Z }.

(** [submit_name is not None and name == submit_name] *)
Definition is_submit_name (submit_name : option string) (name : string) : bool :=
  match submit_name with
  | Some s => String.eqb name s
  | None => false
  end.

(** [index is not None and current_index == index] *)
Definition index_selected (index : option Z) (current_index : Z) : bool :=
  match index with
  | Some i => current_index =? i
  | None => false
  end.

(** The [else] branch of the loop body: the entries of a field that does
    not carry the submit name. *)
Definition value_entries (name : string) (f : field) : list entry :=
  let value := value f in
  if is_None value then []
  else if isinstance_File f then [(name, IField f)]
  else match value with
       | VList items => map (fun item => (name, IVal item)) items
       | _ => [(name, IVal value)]
       end.

(** One iteration of [for name, field in form.field_order]. *)
Definition loop_body (submit_name : option string) (index : option Z)
    (submit_value : pyval) (st : locals) (nf : option string * field) : res locals :=
  let '(name, f) := nf in
  match name with
  | None => Ok st
  | Some name =>
      if is_submit_name submit_name name then
        submit1 ←
          (if index_selected index (current_index st) then
             v ← value_if_submitted f;
             Ok (submit st ++ [(name, IVal v)])
           else Ok (submit st));
        submit2 ←
          (if is_None submit_value then Ok submit1
           else
             v ← value_if_submitted f;
             if pyval_eqb v submit_value then
               v' ← value_if_submitted f;
               Ok (submit1 ++ [(name, IVal v')])
             else Ok submit1);
        Ok {| submit := submit2; current_index := current_index st + 1 |}
      else
        Ok {| submit := submit st ++ value_entries name f;
              current_index := current_index st |}
  end.

(** The [for] loop: the body is run on the fields in order, and an
    exception ends the loop. *)
Fixpoint for_fields (submit_name : option string) (index : option Z)
    (submit_value : pyval) (fields : list (option string * field))
    (st : locals) : res locals :=
  match fields with
  | [] => Ok st
  | nf :: rest =>
      st' ← loop_body submit_name index submit_value st nf;
      for_fields submit_name index submit_value rest st'
  end.

(** [webtest_submit_fields(form, name=None, index=None, submit_value=None)].
    The default [None] of [index] is [None : option Z]; that of
    [submit_value] is the value [VNone]. *)
Definition webtest_submit_fields (form : form) (name : option string)
    (index : option Z) (submit_value : pyval) : res (list entry) :=
  let submit_name := name in
  if (match index with Some _ => true | None => false end)
     && negb (is_None submit_value) then
    Raise (ValueError "Can't specify both submit_value and index.")
  else
    let index :=
      if (match index with Some _ => false | None => true end)
         && is_None submit_value
      then Some 0 else index in
    st ← for_fields submit_name index submit_value (field_order form)
           {| submit := []; current_index := 0 |};
    Ok (submit st).

End Webtest.

(* ===================================================================== *)
(** ** Dicts and the store of dict objects *)
(* ===================================================================== *)

(** A Python dict with string keys. *)
Abbreviation dict := (gmap string pyval).

(** Dict objects live in a store and are passed by reference, so that a
    dict mutated by a callee is the dict its caller holds. *)
Abbreviation loc := nat.
Abbreviation store := (gmap nat (gmap string pyval)).

(** [d.setdefault(key, default)] on the dict itself. *)
Definition setdefault (key : string) (dflt : pyval) (d : dict) : dict :=
  match d !! key with
  | Some _ => d
  | None => <[key := dflt]> d
  end.

(** [d.update(other)] *)
Definition update (other d : dict) : dict := other ∪ d.

(** Computations that read and write the store and may raise. *)
Definition M (A : Type) : Type := store -> store * res A.

#[global] Instance M_ret : MRet M := fun _ a σ => (σ, Ok a).
#[global] Instance M_bind : MBind M := fun _ _ k m σ =>
  match m σ with
  | (σ', Ok a) => k a σ'
  | (σ', Raise e) => (σ', Raise e)
  end.

Definition raise {A} (e : exn) : M A := fun σ => (σ, Raise e).

Definition lift {A} (r : res A) : M A := fun σ => (σ, r).

(** [{}]: a new empty dict object. *)
Definition new_dict : M loc := fun σ =>
  let l := fresh (dom σ) in (<[l := ∅]> σ, Ok l).

(** [key in context]; an object that is not a dict has no membership
    test. *)
Definition dict_contains (context : loc) (key : string) : M bool := fun σ =>
  match σ !! context with
  | Some d => (σ, Ok (bool_decide (is_Some (d !! key))))
  | None => (σ, Raise (OtherError "TypeError"))
  end.

(** [context.setdefault(key, default)], writing to the object in place. *)
Definition dict_setdefault (context : loc) (key : string) (dflt : pyval)
    : M pyval := fun σ =>
  match σ !! context with
  | Some d =>
      let d' := setdefault key dflt d in
      (<[context := d']> σ, Ok (default dflt (d' !! key)))
  | None => (σ, Raise (AttributeError "setdefault"))
  end.

(* ===================================================================== *)
(** ** call_action and call_auth *)
(* ===================================================================== *)

Module Logic.

(** An action or auth function of [ckan.logic]: called as
    [f(context=context, data_dict=data_dict)] with a reference to the
    context dict, it may write to the store and returns a value or
    raises. *)
Definition logic_function : Type := loc -> dict -> M pyval.


Section Helpers.

(** [ckan.logic.get_action]: the action of that name, or an exception. *)
Variable get_action : string -> res logic_function.

(** [ckan.logic.auth.update.__getattribute__]: the attribute of that
    name of the module, or [AttributeError]. *)
Variable auth_update_getattribute : string -> res logic_function.

(** [call_action(action_name, context=None, **kwargs)] *)
Definition call_action (action_name : string) (context : option loc)
    (kwargs : dict) : M pyval :=
  context ← match context with
            | None => new_dict
            | Some context => mret context
            end;
  _ ← dict_setdefault context "user" (VStr "127.0.0.1");
  _ ← dict_setdefault context "ignore_auth" (VBool true);
  action ← lift (get_action action_name);
  action context kwargs.

(** [call_auth(auth_name, context, **kwargs)] *)
Definition call_auth (auth_name : string) (context : loc)
    (kwargs : dict) : M pyval :=
  has_user ← dict_contains context "user";
  if negb has_user then
    raise (AssertionError
             "Test methods must put a user name in the context dict")
  else
  has_model ← dict_contains context "model";
  if negb has_model then
    raise (AssertionError
             "Test methods must put a model in the context dict")
  else
  auth_function ← lift (auth_update_getattribute auth_name);
  auth_function context kwargs.

End Helpers.

End Logic.

(* ===================================================================== *)
(** ** FunctionalTestBaseClass and the global configuration *)
(* ===================================================================== *)

Module Lifecycle.

(** The state the lifecycle methods work on: the global [pylons.config]
    mapping and the class attributes [original_config] and [app], which
    do not exist before [setup_class] has set them. *)
Record world := {
  config : dict;
  original_config : option dict;
  app : option pyval
}.

Definition set_config (cfg : dict) (w : world) : world :=
  {| config := cfg; original_config := original_config w; app := app w |}.

(** What test code may do to the configuration mapping between set-up
    and tear-down. *)
Inductive mutation :=
| SetItem (key : string) (v : pyval)   (* config[key] = v *)
| DelItem (key : string)               (* del config[key] *)
| Update (other : dict)                (* config.update(other) *)
| Clear.                               (* config.clear() *)

Definition mutate (cfg : dict) (m : mutation) : dict :=
  match m with
  | SetItem key v => <[key := v]> cfg
  | DelItem key => delete key cfg
  | Update other => update other cfg
  | Clear => ∅
  end.

Definition run_tests (ms : list mutation) (w : world) : world :=
  set_config (foldl mutate (config w) ms) w.

Section BaseClass.

(** The hook [_apply_config_changes(cfg)] that subclasses override: it
    is handed the configuration mapping itself, changes it in place and
    may raise. The base class's hook is [pass]. *)
Variable _apply_config_changes : dict -> dict * res unit.

(** [ckan.config.middleware.make_app(global_conf, **app_conf)]: returns
    the application or raises, and may change the global configuration
    (last argument and first result). *)
Variable make_app : pyval -> dict -> dict -> dict * res pyval.

(** [webtest.TestApp(app)] *)
Variable TestApp : pyval -> pyval.

(** [_get_test_app()], on the global configuration. *)
Definition _get_test_app (cfg : dict) : dict * res pyval :=
  let cfg := <["ckan.legacy_templates" := VBool false]> cfg in
  match cfg !! "global_conf" with
  | None => (cfg, Raise (KeyError "global_conf"))
  | Some global_conf =>
      match make_app global_conf cfg cfg with
      | (cfg, Ok app) => (cfg, Ok (TestApp app))
      | (cfg, Raise e) => (cfg, Raise e)
      end
  end.

(** [FunctionalTestBaseClass.setup_class] *)
Definition setup_class (w : world) : world * res unit :=
  let original := config w in          (* config.copy() *)
  match _apply_config_changes (config w) with
  | (cfg, Raise e) =>
      ({| config := cfg; original_config := Some original; app := app w |},
       Raise e)
  | (cfg, Ok _) =>
      match _get_test_app cfg with
      | (cfg, Raise e) =>
          ({| config := cfg; original_config := Some original;
              app := app w |}, Raise e)
      | (cfg, Ok a) =>
          ({| config := cfg; original_config := Some original;
              app := Some a |}, Ok tt)
      end
  end.

(** [FunctionalTestBaseClass.teardown_class] *)
Definition teardown_class (w : world) : world * res unit :=
  match original_config w with
  | None => (set_config ∅ w, Raise (AttributeError "original_config"))
  | Some original =>
      let cfg : dict := ∅ in           (* config.clear() *)
      (set_config (update original cfg) w, Ok tt)
  end.

End BaseClass.

(** The hook of the base class itself. *)
Definition pass (cfg : dict) : dict * res unit := (cfg, Ok tt).

End Lifecycle.

Import Webtest Logic Lifecycle.

(* ===================================================================== *)
(** ** Vocabulary of the specification *)
(* ===================================================================== *)

(** The fields of the form that carry the name [s], in declaration
    order: the fields that [current_index] counts. *)
Fixpoint same_named (s : string) (fields : list (option string * field))
    : list field :=
  match fields with
  | [] => []
  | (Some n, f) :: rest =>
      if String.eqb n s then f :: same_named s rest else same_named s rest
  | (None, _) :: rest => same_named s rest
  end.

(** The entries of an output list under the name [s]. *)
Definition entries_named (s : string) (out : list entry) : list entry :=
  filter (fun e => e.1 = s) out.

(** The entries of a field outside the submit branch; a field without a
    name has none. *)
Definition entries_of (nf : option string * field) : list entry :=
  match nf.1 with
  | Some n => value_entries n nf.2
  | None => []
  end.

(** What a form sends when no button is pressed, in the words of the
    specification and by the class of the field: nothing for a field
    without a name, for a submit button and for a field whose value is
    [None]; the field object itself for a file upload; one entry per
    element, in order, for a list value; one entry for any other
    value. *)
Definition values_without_button (nf : option string * field) : list entry :=
  match nf with
  | (None, _) => []
  | (Some _, Submit _) => []
  | (Some _, File VNone) => []
  | (Some n, File v) => [(n, IField (File v))]
  | (Some _, Field VNone) => []
  | (Some n, Field (VList items)) => map (fun a => (n, IVal a)) items
  | (Some n, Field v) => [(n, IVal v)]
  end.

(** The two [setdefault] calls of [call_action] on a dict. *)
Definition with_defaults (d : dict) : dict :=
  setdefault "ignore_auth" (VBool true) (setdefault "user" (VStr "127.0.0.1") d).

(* ===================================================================== *)
(** ** Sample inputs *)
(* ===================================================================== *)

(** Two submit buttons named [save] among other fields. *)
Definition two_buttons : form :=
  {| field_order := [ (Some "title", Field (VStr "A dataset"));
                      (Some "save", Submit (VStr "draft"));
                      (Some "tags", Field (VList [VStr "a"; VStr "b"]));
                      (Some "save", Submit (VStr "publish")) ] |}.

(** The second button has no value attribute: its submitted value is
    [None]. *)
Definition valueless_button : form :=
  {| field_order := [ (Some "save", Submit (VStr "draft"));
                      (Some "save", Submit VNone) ] |}.

(** A text field and an unchecked checkbox that carry the name of the
    button after them. *)
Definition text_before_button : form :=
  {| field_order := [ (Some "save", Field (VStr "typed"));
                      (Some "save", Submit (VStr "draft")) ] |}.

Definition list_before_button : form :=
  {| field_order := [ (Some "save", Field (VList [VStr "a"; VStr "b"]));
                      (Some "save", Submit (VStr "draft")) ] |}.

Definition unchecked_before_button : form :=
  {| field_order := [ (Some "save", Field VNone);
                      (Some "save", Submit (VStr "draft")) ] |}.

Definition button_alone : form :=
  {| field_order := [ (Some "save", Submit (VStr "draft")) ] |}.

(** Two buttons and a text field, all named [save]. *)
Definition buttons_then_text : form :=
  {| field_order := [ (Some "save", Submit (VStr "draft"));
                      (Some "save", Submit (VStr "publish"));
                      (Some "save", Field (VStr "typed")) ] |}.

(** A form on which the loop raises when it reaches the first field. *)
Definition text_named_like_button : form :=
  {| field_order := [ (Some "save", Field (VStr "x")) ] |}.

(** An auth function that allows everything and records that it ran. *)
Definition allow_all : logic_function := fun context _ σ =>
  (<[context := <["auth_ran" := VBool true]> (default ∅ (σ !! context))]> σ,
   Ok (VBool true)).

Definition only_user_update (name : string) : res logic_function :=
  if String.eqb name "user_update" then Ok allow_all
  else Raise (AttributeError name).

Definition fred_context : dict :=
  <["user" := VStr "fred"]> (<["model" := VObj 7]> ∅).

Definition context_without_model : dict := <["user" := VStr "fred"]> ∅.

(** An action that reports the user of its context. *)
Definition whoami : logic_function := fun context _ σ =>
  (σ, Ok (default VNone (σ !! context ≫= lookup "user"))).

Definition only_whoami (name : string) : res logic_function :=
  if String.eqb name "whoami" then Ok whoami else Raise (KeyError name).

(** A configuration as read from an ini file. *)
Definition ini : dict :=
  <["global_conf" := VObj 0]> (<["ckan.site_id" := VStr "default"]> ∅).

(* ===================================================================== *)
(** ** webtest_submit *)
(* ===================================================================== *)

Module Submission.

(** [str.upper()] on a byte string: the letters a-z become A-Z. *)
Definition upper_ascii (c : Ascii.ascii) : Ascii.ascii :=
  let n := Ascii.nat_of_ascii c in
  if ((97 <=? n) && (n <=? 122))%nat then Ascii.ascii_of_nat (n - 32) else c.

Fixpoint upper (s : string) : string :=
  match s with
  | EmptyString => EmptyString
  | String c rest => String (upper_ascii c) (upper rest)
  end.

(** The form object with the attributes [webtest_submit] reads besides
    [field_order]: [method], [enctype] and [action]. *)
Record html_form := {
  form_fields : form;
  method : string;
  enctype : pyval;
  action : string
}.

Section Goto.

(** [form.response.goto(href, method=..., params=..., **args)]: the
    simulated request, with the keyword arguments left over in [args]. *)
Variable goto : string -> string -> list entry -> dict -> res pyval.

(** [webtest_submit(form, name=None, index=None, value=None, **args)].
    The call [goto(form.action, method=form.method, params=fields, **args)]
    gives [goto] its parameter [href] by position and [method] and
    [params] by keyword; a key [method], [params] or [href] in [args] is
    a second value for one of them, which Python refuses with [TypeError]
    before the callee runs. *)
Definition webtest_submit (form : html_form) (name : option string)
    (index : option Z) (value : pyval) (args : dict) : res pyval :=
  fields ← webtest_submit_fields (form_fields form) name index value;
  let args :=
    if negb (String.eqb (upper (method form)) "GET")
    then setdefault "content_type" (enctype form) args
    else args in
  if bool_decide (is_Some (args !! "method"))
     || bool_decide (is_Some (args !! "params"))
     || bool_decide (is_Some (args !! "href"))
  then Raise (OtherError "TypeError")
  else goto (action form) (method form) fields args.

End Goto.

End Submission.

(* ===================================================================== *)
(** ** reset_db and the per-test setup *)
(* ===================================================================== *)

Module Database.

Section Db.

(** The state of the database layer. *)
Variable db : Type.

(** [model.Session.close_all()] *)
Variable close_all : db -> db * res unit.

(** [model.repo.rebuild_db()] *)
Variable rebuild_db : db -> db * res unit.

(** [reset_db()] *)
Definition reset_db (d : db) : db * res unit :=
  match close_all d with
  | (d, Ok _) => rebuild_db d
  | (d, Raise e) => (d, Raise e)
  end.

(** [FunctionalTestBaseClass.setup] *)
Definition setup (d : db) : db * res unit :=
  match close_all d with
  | (d, Ok _) => rebuild_db d
  | (d, Raise e) => (d, Raise e)
  end.

End Db.

End Database.

Import Submission Database.

(** A button that sends the value [v] when pressed. *)
Definition submits (v : pyval) (f : field) : bool :=
  match f with
  | Submit w => pyval_eqb w v
  | _ => false
  end.

(** A text field that shares its name with two buttons. *)
Definition text_among_buttons : form :=
  {| field_order := [ (Some "save", Field (VStr "typed"));
                      (Some "save", Submit (VStr "draft"));
                      (None, Field (VStr "anonymous"));
                      (Some "save", Submit (VStr "draft")) ] |}.

Definition post_form : html_form :=
  {| form_fields := two_buttons; method := "post";
     enctype := VStr "multipart/form-data"; action := "/dataset/new" |}.

Definition get_form : html_form :=
  {| form_fields := two_buttons; method := "get";
     enctype := VStr "application/x-www-form-urlencoded";
     action := "/dataset" |}.

(** A request that answers with the number of the page it went to. *)
Definition goto_ok : string -> string -> list entry -> dict -> res pyval :=
  fun _ _ _ _ => Ok (VObj 200).

(* ===================================================================== *)
(** * Properties *)
(* ===================================================================== *)

(** ** Equality of Python values *)

Lemma pyval_eqb_eq (a b : pyval) : pyval_eqb a b = true <-> a = b.
Proof.
  revert b. induction a as [| x | x | xs IH | x] using pyval_nested_ind;
    intros [| y | y | ys | y]; simpl; try (split; congruence).
  - destruct x, y; simpl; split; congruence.
  - rewrite String.eqb_eq. split; congruence.
  - revert ys. induction IH as [| x xs Hx _ IHxs]; intros [| y ys];
      try (split; congruence).
    rewrite andb_true_iff, Hx. specialize (IHxs ys).
    split.
    + intros [-> H]. apply IHxs in H. congruence.
    + intros [= -> ->]. split; [done|]. apply IHxs. done.
  - rewrite Nat.eqb_eq. split; congruence.
Qed.

Lemma pyval_eqb_refl (a : pyval) : pyval_eqb a a = true.
Proof. by apply pyval_eqb_eq. Qed.

Lemma pyval_eqb_neq (a b : pyval) : a <> b -> pyval_eqb a b = false.
Proof.
  intros H. destruct (pyval_eqb a b) eqn:E; [|done].
  by apply pyval_eqb_eq in E.
Qed.

Lemma is_None_false (v : pyval) : v <> VNone -> is_None v = false.
Proof. by destruct v. Qed.

(* ===================================================================== *)
(** ** webtest_submit_fields *)
(* ===================================================================== *)

Lemma filter_none {A} (P : A -> Prop) `{forall x, Decision (P x)} (l : list A) :
  (forall x, x ∈ l -> ~ P x) -> filter P l = [].
Proof.
  induction l as [|a l IH]; intros Hl; [done|].
  rewrite filter_cons. destruct (decide (P a)) as [Ha|_].
  - exfalso. apply (Hl a); [left|done].
  - apply IH. intros x Hx. apply Hl. by right.
Qed.

Lemma for_fields_app name index sv l1 l2 st :
  for_fields name index sv (l1 ++ l2) st =
  st' ← for_fields name index sv l1 st; for_fields name index sv l2 st'.
Proof.
  revert st. induction l1 as [|nf l1 IH]; intros st; simpl; [done|].
  destruct (loop_body name index sv st nf) as [st'|e]; simpl; [apply IH|done].
Qed.

Lemma value_entries_name n f e : e ∈ value_entries n f -> e.1 = n.
Proof.
  unfold value_entries. destruct (is_None (value f)); [by intros ?%elem_of_nil|].
  destruct (isinstance_File f).
  { by intros ->%list_elem_of_singleton. }
  destruct (value f); try by intros ->%list_elem_of_singleton.
  intros (x & -> & _)%list_elem_of_fmap. done.
Qed.

Lemma entries_named_app s (o1 o2 : list entry) :
  entries_named s (o1 ++ o2) = entries_named s o1 ++ entries_named s o2.
Proof. apply filter_app. Qed.

Lemma entries_named_value_entries s n f :
  n <> s -> entries_named s (value_entries n f) = [].
Proof.
  intros Hne. unfold entries_named. apply filter_none.
  intros e He%value_entries_name. congruence.
Qed.

(** The branch of the loop body for a field outside the submit branch. *)
Lemma loop_body_other name index sv st n f :
  is_submit_name name n = false ->
  loop_body name index sv st (Some n, f) =
  Ok {| submit := submit st ++ value_entries n f;
        current_index := current_index st |}.
Proof. intros H. simpl. by rewrite H. Qed.

(** The submit branch on a button, when selecting by index. *)
Lemma loop_body_button_index s i st w :
  loop_body (Some s) (Some i) VNone st (Some s, Submit w) =
  Ok {| submit := if current_index st =? i
                  then submit st ++ [(s, IVal w)] else submit st;
        current_index := current_index st + 1 |}.
Proof.
  simpl. rewrite String.eqb_refl.
  by destruct (current_index st =? i).
Qed.

(** The submit branch on a button, when selecting by value. *)
Lemma loop_body_button_value s v st w :
  v <> VNone ->
  loop_body (Some s) None v st (Some s, Submit w) =
  Ok {| submit := if pyval_eqb w v
                  then submit st ++ [(s, IVal w)] else submit st;
        current_index := current_index st + 1 |}.
Proof.
  intros Hv. simpl. rewrite String.eqb_refl, (is_None_false v Hv). simpl.
  by destruct (pyval_eqb w v).
Qed.

(** Selecting by index on a form whose fields of that name are buttons:
    the loop returns, and under that name it adds the value of the
    button at position [i], counted from [current_index]. *)
Lemma for_fields_by_index s i fields : forall st,
  Forall (fun f => is_Submit f = true) (same_named s fields) ->
  exists st',
    for_fields (Some s) (Some i) VNone fields st = Ok st' /\
    entries_named s (submit st') =
      entries_named s (submit st) ++
      match (if decide (current_index st <= i)
             then same_named s fields !! Z.to_nat (i - current_index st)
             else None) with
      | Some (Submit w) => [(s, IVal w)]
      | _ => []
      end.
Proof.
  induction fields as [|[[n|] f] rest IH]; intros st Hb.
  - exists st. split; [done|]. simpl. case_decide; by rewrite app_nil_r.
  - cbn [same_named] in *. destruct (String.eqb n s) eqn:En.
    + apply String.eqb_eq in En as ->.
      apply Forall_cons in Hb as [Hf Hb]. destruct f as [w| |]; try done.
      cbn [for_fields]. rewrite loop_body_button_index. cbn [mbind res_bind].
      destruct (IH {| submit := if current_index st =? i
                                then submit st ++ [(s, IVal w)] else submit st;
                      current_index := current_index st + 1 |} Hb)
        as (st' & -> & Hst').
      exists st'. split; [done|]. rewrite Hst'. cbn [submit current_index].
      destruct (Z.eqb_spec (current_index st) i) as [->|Hne].
      * rewrite decide_False by lia. rewrite decide_True by lia.
        rewrite Z.sub_diag. simpl. rewrite app_nil_r, entries_named_app.
        f_equal. unfold entries_named.
        by rewrite filter_cons, decide_True by done.
      * f_equal. destruct (decide (current_index st <= i)).
        -- rewrite decide_True by lia.
           replace (Z.to_nat (i - current_index st))
             with (S (Z.to_nat (i - (current_index st + 1)))) by lia.
           done.
        -- by rewrite decide_False by lia.
    + cbn [for_fields]. rewrite loop_body_other by (simpl; by rewrite En).
      cbn [mbind res_bind].
      destruct (IH {| submit := submit st ++ value_entries n f;
                      current_index := current_index st |} Hb)
        as (st' & -> & Hst').
      exists st'. split; [done|]. rewrite Hst'. cbn [submit current_index].
      rewrite entries_named_app, entries_named_value_entries, app_nil_r;
        [done|].
      intros ->. by rewrite String.eqb_refl in En.
  - cbn [for_fields same_named loop_body mbind res_bind] in *. by apply IH.
Qed.

(** On a form whose buttons of that name have distinct values, selecting
    by index [i] and selecting by the value of the button at [i] run the
    loop in the same way, provided that value is not [None]. [pre] are
    the same-named fields already passed. *)
Lemma for_fields_index_value s i v fields : forall pre st,
  Forall (fun f => is_Submit f = true) (same_named s fields) ->
  NoDup (pre ++ same_named s fields) ->
  (pre ++ same_named s fields) !! Z.to_nat i = Some (Submit v) ->
  0 <= i -> v <> VNone ->
  current_index st = Z.of_nat (length pre) ->
  for_fields (Some s) (Some i) VNone fields st =
  for_fields (Some s) None v fields st.
Proof.
  induction fields as [|[[n|] f] rest IH]; intros pre st Hb Hnd Hi Hpos Hv Hk;
    [done| |by apply (IH pre)].
  cbn [same_named] in *. destruct (String.eqb n s) eqn:En.
  - apply String.eqb_eq in En as ->.
    apply Forall_cons in Hb as [Hf Hb]. destruct f as [w| |]; try done.
    cbn [for_fields].
    rewrite loop_body_button_index, loop_body_button_value by done.
    assert ((current_index st =? i) = pyval_eqb w v) as ->.
    { assert ((pre ++ Submit w :: same_named s rest) !! length pre
              = Some (Submit w)) as Hhd
        by (by rewrite lookup_app_r, Nat.sub_diag by lia).
      destruct (Z.eqb_spec (current_index st) i) as [Heq|Hne].
      - replace (Z.to_nat i) with (length pre) in Hi by lia.
        rewrite Hhd in Hi. injection Hi as ->. by rewrite pyval_eqb_refl.
      - symmetry. apply pyval_eqb_neq. intros ->.
        pose proof (NoDup_lookup _ _ _ _ Hnd Hhd Hi). lia. }
    cbn [mbind res_bind].
    apply (IH (pre ++ [Submit w])).
    + done.
    + by rewrite <- app_assoc.
    + by rewrite <- app_assoc.
    + done.
    + done.
    + cbn [current_index]. rewrite length_app. simpl. lia.
  - cbn [for_fields]. rewrite !loop_body_other by (simpl; by rewrite En).
    cbn [mbind res_bind]. by apply (IH pre).
Qed.

(** C1. Selecting a submit button by index: on a form whose fields named
    [s] are all submit buttons with pairwise distinct values, the call
    with name [s] and index [i] returns a list whose entries under the
    name [s] are exactly the one entry with the value of the [i]-th field
    of that name (counted from zero in declaration order), and the value
    of no other button of that name occurs under [s]. *)
Theorem submit_by_index_selects_ith (form : form) (s : string) (i : Z)
    (v : pyval) :
  Forall (fun f => is_Submit f = true) (same_named s (field_order form)) ->
  NoDup (same_named s (field_order form)) ->
  0 <= i ->
  same_named s (field_order form) !! Z.to_nat i = Some (Submit v) ->
  exists out,
    webtest_submit_fields form (Some s) (Some i) VNone = Ok out /\
    entries_named s out = [(s, IVal v)] /\
    forall j w,
      same_named s (field_order form) !! j = Some (Submit w) ->
      j <> Z.to_nat i ->
      (s, IVal w) ∉ out.
Proof.
  intros Hb Hnd Hpos Hi. unfold webtest_submit_fields. simpl.
  destruct (for_fields_by_index s i (field_order form)
              {| submit := []; current_index := 0 |} Hb) as (st' & -> & Hout).
  exists (submit st'). cbn [submit current_index] in Hout.
  rewrite decide_True, Z.sub_0_r, Hi in Hout by done. simpl in Hout.
  split; [done|]. split; [done|].
  intros j w Hj Hne Hin.
  assert ((s, IVal w) ∈ entries_named s (submit st')) as Hin'
    by (by apply list_elem_of_filter).
  rewrite Hout in Hin'. apply list_elem_of_singleton in Hin'.
  injection Hin' as ->.
  by pose proof (NoDup_lookup _ _ _ _ Hnd Hj Hi).
Qed.

Lemma submit_by_index_selects_ith_witness :
  exists out,
    webtest_submit_fields two_buttons (Some "save") (Some 1) VNone = Ok out /\
    entries_named "save" out = [("save", IVal (VStr "publish"))] /\
    forall j w,
      same_named "save" (field_order two_buttons) !! j = Some (Submit w) ->
      j <> Z.to_nat 1 ->
      ("save", IVal w) ∉ out.
Proof.
  apply (submit_by_index_selects_ith two_buttons "save" 1 (VStr "publish")).
  - repeat constructor.
  - simpl. apply NoDup_cons. split; [|apply NoDup_singleton].
    intros H%list_elem_of_singleton. discriminate.
  - lia.
  - reflexivity.
Defined.

(** C2 as stated fails for a button without a value attribute, whose
    submitted value is [None]: the buttons named [save] have distinct
    values, index 1 selects the second one, but passing its value as
    [submit_value] is passing no value, and the first button is selected
    instead. *)
Lemma by_value_differs_on_valueless_button :
  Forall (fun f => is_Submit f = true)
         (same_named "save" (field_order valueless_button)) /\
  NoDup (same_named "save" (field_order valueless_button)) /\
  same_named "save" (field_order valueless_button) !! Z.to_nat 1
    = Some (Submit VNone) /\
  webtest_submit_fields valueless_button (Some "save") (Some 1) VNone
    = Ok [("save", IVal VNone)] /\
  webtest_submit_fields valueless_button (Some "save") None VNone
    = Ok [("save", IVal (VStr "draft"))] /\
  webtest_submit_fields valueless_button (Some "save") (Some 1) VNone
    <> webtest_submit_fields valueless_button (Some "save") None VNone.
Proof.
  split; [repeat constructor|].
  split.
  { simpl. apply NoDup_cons. split; [|apply NoDup_singleton].
    intros H%list_elem_of_singleton. discriminate. }
  repeat split; try reflexivity. discriminate.
Qed.

(** Selecting by value asks every field of the submit name for the value
    it would submit, and only a button has one: with a text field among
    them the call by index 0 returns and the call by the value of that
    button raises. *)
Example by_value_raises_on_same_named_text_field :
  webtest_submit_fields buttons_then_text (Some "save") (Some 0) VNone
    = Ok [("save", IVal (VStr "draft"))] /\
  webtest_submit_fields buttons_then_text (Some "save") None (VStr "draft")
    = Raise (AttributeError "value_if_submitted").
Proof. split; reflexivity. Qed.

(** C2, amended. On a form where every field named [s] is a submit
    button and these buttons have pairwise distinct values, for an index
    [i] that is not negative and at which there is such a button, with a
    value [v] other than [None]: the call with name [s] and index [i]
    and the call with name [s] and [v] as [submit_value] both return,
    and they return the same output list. *)
Theorem submit_by_value_same_as_by_index (form : form) (s : string) (i : Z)
    (v : pyval) :
  Forall (fun f => is_Submit f = true) (same_named s (field_order form)) ->
  NoDup (same_named s (field_order form)) ->
  0 <= i ->
  same_named s (field_order form) !! Z.to_nat i = Some (Submit v) ->
  v <> VNone ->
  exists out,
    webtest_submit_fields form (Some s) (Some i) VNone = Ok out /\
    webtest_submit_fields form (Some s) None v = Ok out.
Proof.
  intros Hb Hnd Hpos Hi Hv.
  destruct (for_fields_by_index s i (field_order form)
              {| submit := []; current_index := 0 |} Hb) as (st' & Hrun & _).
  exists (submit st').
  unfold webtest_submit_fields. simpl. rewrite (is_None_false v Hv). simpl.
  rewrite <- (for_fields_index_value s i v (field_order form) []) by done.
  by rewrite Hrun.
Qed.

Lemma submit_by_value_same_as_by_index_witness :
  exists out,
    webtest_submit_fields two_buttons (Some "save") (Some 1) VNone = Ok out /\
    webtest_submit_fields two_buttons (Some "save") None (VStr "publish")
      = Ok out.
Proof.
  apply (submit_by_value_same_as_by_index two_buttons "save" 1
           (VStr "publish")).
  - repeat constructor.
  - simpl. apply NoDup_cons. split; [|apply NoDup_singleton].
    intros H%list_elem_of_singleton. discriminate.
  - lia.
  - reflexivity.
  - discriminate.
Defined.

(** C3. A call that gives both an index and a submit value raises
    [ValueError], whatever the form and the name are: the form is not
    looked at, so that not even a form on which the loop itself would
    raise changes the outcome, and no list is returned. *)
Theorem both_index_and_value_raises (form : form) (name : option string)
    (i : Z) (submit_value : pyval) :
  submit_value <> VNone ->
  webtest_submit_fields form name (Some i) submit_value =
  Raise (ValueError "Can't specify both submit_value and index.").
Proof.
  intros Hv. unfold webtest_submit_fields.
  by rewrite (is_None_false _ Hv).
Qed.

Lemma both_index_and_value_raises_witness :
  VStr "x" <> VNone /\
  webtest_submit_fields text_named_like_button (Some "save") None (VStr "x")
    = Raise (AttributeError "value_if_submitted") /\
  webtest_submit_fields text_named_like_button (Some "save") (Some 0)
    (VStr "x")
    = Raise (ValueError "Can't specify both submit_value and index.").
Proof.
  split; [discriminate|]. split; [reflexivity|].
  apply (both_index_and_value_raises text_named_like_button (Some "save") 0
           (VStr "x")).
  discriminate.
Defined.

(** The loop only appends to [submit]: entries already collected are
    carried through unchanged. *)
Lemma for_fields_prepend name index sv fields : forall acc out k,
  for_fields name index sv fields {| submit := acc ++ out; current_index := k |} =
  st' ← for_fields name index sv fields {| submit := out; current_index := k |};
  Ok {| submit := acc ++ submit st'; current_index := current_index st' |}.
Proof.
  induction fields as [|[[n|] f] rest IH]; intros acc out k; [done| |apply IH].
  cbn [for_fields loop_body submit current_index].
  destruct (is_submit_name name n).
  - destruct (index_selected index k), (is_None sv), (value_if_submitted f) as [w|e];
      cbn [mbind res_bind]; try done;
      try destruct (pyval_eqb w sv); cbn [mbind res_bind];
      rewrite <- ?app_assoc; apply IH.
  - cbn [mbind res_bind]. rewrite <- app_assoc. apply IH.
Qed.

Lemma for_fields_from name index sv fields acc k :
  for_fields name index sv fields {| submit := acc; current_index := k |} =
  st' ← for_fields name index sv fields {| submit := []; current_index := k |};
  Ok {| submit := acc ++ submit st'; current_index := current_index st' |}.
Proof. by rewrite <- for_fields_prepend, app_nil_r. Qed.

(** A field outside the submit branch splits the run of the loop: its
    entries are appended between those of the fields before it and those
    of the fields after it, and it does not advance [current_index]. *)
Lemma for_fields_insert name index sv pre post n f st :
  is_submit_name name n = false ->
  for_fields name index sv (pre ++ (Some n, f) :: post) st =
  st1 ← for_fields name index sv pre st;
  for_fields name index sv post
    {| submit := submit st1 ++ value_entries n f;
       current_index := current_index st1 |}.
Proof.
  intros Hn. rewrite for_fields_app.
  destruct (for_fields name index sv pre st) as [st1|e]; [|done].
  cbn [mbind res_bind for_fields]. by rewrite loop_body_other.
Qed.

(** Without a submit name every field takes the branch of the loop for
    the other fields. *)
Lemma for_fields_no_name index sv fields : forall st,
  for_fields None index sv fields st =
  Ok {| submit := submit st ++ flat_map entries_of fields;
        current_index := current_index st |}.
Proof.
  induction fields as [|[[n|] f] rest IH]; intros st.
  - simpl. rewrite app_nil_r. by destruct st.
  - cbn [for_fields loop_body is_submit_name mbind res_bind].
    rewrite IH. cbn [submit current_index flat_map entries_of fst snd].
    by rewrite <- app_assoc.
  - cbn [for_fields loop_body mbind res_bind]. by rewrite IH.
Qed.

Lemma entries_of_Submit n w : entries_of (n, Submit w) = [].
Proof. unfold entries_of. by destruct n. Qed.

Lemma flat_map_entries_of_not_Submit fields :
  flat_map entries_of fields =
  flat_map entries_of (filter (fun nf => is_Submit nf.2 = false) fields).
Proof.
  induction fields as [|[n f] rest IH]; [done|].
  rewrite filter_cons. cbn [flat_map]. destruct f as [w| |]; simpl.
  - by rewrite entries_of_Submit.
  - by rewrite IH.
  - by rewrite IH.
Qed.

(** The call returns a list whenever at most one of index and submit
    value is given and the fields carrying the submit name are buttons. *)
Lemma for_fields_returns name index sv fields : forall st,
  (forall s, name = Some s ->
             Forall (fun f => is_Submit f = true) (same_named s fields)) ->
  exists st', for_fields name index sv fields st = Ok st'.
Proof.
  induction fields as [|[[n|] f] rest IH]; intros st Hb;
    [by exists st| |by apply IH].
  cbn [for_fields]. destruct (is_submit_name name n) eqn:En.
  - destruct name as [s|]; [|done]. simpl in En.
    apply String.eqb_eq in En as ->.
    specialize (Hb s eq_refl) as Hs. cbn [same_named] in Hs.
    rewrite String.eqb_refl in Hs. apply Forall_cons in Hs as [Hf Hs].
    destruct f as [w| |]; try done.
    assert (exists st1, loop_body (Some s) index sv st (Some s, Submit w)
                        = Ok st1) as [st1 ->].
    { simpl. rewrite String.eqb_refl.
      destruct (index_selected index (current_index st)), (is_None sv);
        simpl; try destruct (pyval_eqb w sv); simpl; eauto. }
    cbn [mbind res_bind]. apply IH. by intros ? [= <-].
  - rewrite loop_body_other by done. cbn [mbind res_bind]. apply IH.
    intros s ->. specialize (Hb s eq_refl). cbn [same_named] in Hb.
    simpl in En. by rewrite En in Hb.
Qed.

Lemma webtest_submit_fields_returns form name index sv :
  index = None \/ sv = VNone ->
  (forall s, name = Some s ->
             Forall (fun f => is_Submit f = true)
                    (same_named s (field_order form))) ->
  exists out, webtest_submit_fields form name index sv = Ok out.
Proof.
  intros Hone Hb. unfold webtest_submit_fields.
  assert ((match index with Some _ => true | None => false end)
          && negb (is_None sv) = false) as ->.
  { destruct Hone as [->| ->]; [done|]. by destruct index. }
  match goal with
  | |- context [for_fields name ?i sv (field_order form) ?st] =>
      destruct (for_fields_returns name i sv (field_order form) st Hb)
        as [st' ->]
  end.
  by exists (submit st').
Qed.

(** The branch of the loop for the other fields sends what the
    specification says a field sends. *)
Lemma entries_of_values_without_button nf :
  entries_of nf = values_without_button nf.
Proof.
  destruct nf as [[n|] [w|v|v]]; try done; unfold entries_of, value_entries;
    simpl; by destruct v.
Qed.

(** C10. With no name, no index and no submit value the call returns,
    and its output is, field by field in declaration order, what the
    fields send when no button is pressed: the values of the fields that
    are not submit buttons (a list value as one entry per element, a file
    upload as the field itself, nothing for the value [None]) and no
    entry for any submit button, although the index has been defaulted
    to 0. *)
Theorem no_name_no_button_entry (form : form) :
  webtest_submit_fields form None None VNone =
  Ok (flat_map values_without_button (field_order form)).
Proof.
  unfold webtest_submit_fields. simpl.
  rewrite for_fields_no_name. simpl. f_equal.
  apply List.flat_map_ext. intros nf. apply entries_of_values_without_button.
Qed.

(** C6 as stated fails for a field that is not a submit button but
    carries the submit name: it takes the branch of the loop for the
    buttons, where it is counted and, not being selected, sends nothing.
    Neither the text value of the first form nor the two elements of the
    list value of the second one are in the output. *)
Lemma same_named_text_field_sends_nothing :
  is_Submit (Field (VStr "typed")) = false /\
  value (Field (VStr "typed")) = VStr "typed" /\
  webtest_submit_fields text_before_button (Some "save") (Some 1) VNone
    = Ok [("save", IVal (VStr "draft"))] /\
  (("save", IVal (VStr "typed")) ∉ [("save", IVal (VStr "draft"))]) /\
  is_Submit (Field (VList [VStr "a"; VStr "b"])) = false /\
  webtest_submit_fields list_before_button (Some "save") (Some 1) VNone
    = Ok [("save", IVal (VStr "draft"))] /\
  (("save", IVal (VStr "a")) ∉ [("save", IVal (VStr "draft"))]) /\
  (("save", IVal (VStr "b")) ∉ [("save", IVal (VStr "draft"))]).
Proof.
  repeat split; try reflexivity;
    intros H%list_elem_of_singleton; discriminate.
Qed.

(** C6, amended. A field whose name is not the submit name of the call
    (any named field, when the call gives no name) and whose value is
    not [None] contributes its entries at its own place in the walk over
    the fields: when the call returns on the form without the field, it
    returns on the form with it, and the output is that of the fields
    before ([out1]), then the entries of the field, then that of the
    fields after ([out2]). The entries are: for a file upload, the field
    object itself; otherwise for a list value, one entry per element, in
    order; otherwise the single entry with that value. *)
Theorem non_submit_field_entries (pre post : list (option string * field))
    (n : string) (f : field) (name : option string) (index : option Z)
    (submit_value : pyval) (out0 : list entry) :
  is_submit_name name n = false ->
  value f <> VNone ->
  webtest_submit_fields {| field_order := pre ++ post |}
    name index submit_value = Ok out0 ->
  exists out1 out2 entries,
    out0 = out1 ++ out2 /\
    webtest_submit_fields {| field_order := pre |}
      name index submit_value = Ok out1 /\
    webtest_submit_fields {| field_order := pre ++ (Some n, f) :: post |}
      name index submit_value = Ok (out1 ++ entries ++ out2) /\
    (isinstance_File f = true -> entries = [(n, IField f)]) /\
    (isinstance_File f = false ->
       forall items, value f = VList items ->
       entries = map (fun item => (n, IVal item)) items) /\
    (isinstance_File f = false ->
       (forall items, value f <> VList items) ->
       entries = [(n, IVal (value f))]).
Proof.
  intros Hn Hv. unfold webtest_submit_fields. cbn [field_order].
  destruct (_ && _); [done|].
  rewrite for_fields_insert, for_fields_app by done.
  destruct (for_fields name _ submit_value pre _) as [[o1 k1]|e];
    cbn [mbind res_bind submit current_index]; [|done].
  rewrite (for_fields_from _ _ _ post (o1 ++ _)),
    (for_fields_from _ _ _ post o1).
  destruct (for_fields name _ submit_value post _) as [[o2 k2]|e];
    cbn [mbind res_bind submit current_index]; [|done].
  intros [= <-]. exists o1, o2, (value_entries n f).
  rewrite <- app_assoc. repeat split; try done.
  - intros HF. unfold value_entries. by rewrite is_None_false, HF.
  - intros HF items Hitems. unfold value_entries.
    by rewrite is_None_false, HF, Hitems.
  - intros HF Hscalar. unfold value_entries. rewrite is_None_false, HF by done.
    destruct (value f) as [| | |items|]; try done. by destruct (Hscalar items).
Qed.

Lemma non_submit_field_entries_witness :
  exists out1 out2 entries,
    [("title", IVal (VStr "A dataset")); ("save", IVal (VStr "publish"))]
      = out1 ++ out2 /\
    webtest_submit_fields
      {| field_order := [ (Some "title", Field (VStr "A dataset"));
                          (Some "save", Submit (VStr "draft")) ] |}
      (Some "save") (Some 1) VNone = Ok out1 /\
    webtest_submit_fields two_buttons (Some "save") (Some 1) VNone
      = Ok (out1 ++ entries ++ out2) /\
    (isinstance_File (Field (VList [VStr "a"; VStr "b"])) = true ->
       entries = [("tags", IField (Field (VList [VStr "a"; VStr "b"])))]) /\
    (isinstance_File (Field (VList [VStr "a"; VStr "b"])) = false ->
       forall items, VList [VStr "a"; VStr "b"] = VList items ->
       entries = map (fun item => ("tags", IVal item)) items) /\
    (isinstance_File (Field (VList [VStr "a"; VStr "b"])) = false ->
       (forall items, VList [VStr "a"; VStr "b"] <> VList items) ->
       entries = [("tags", IVal (VList [VStr "a"; VStr "b"]))]).
Proof.
  apply (non_submit_field_entries
           [ (Some "title", Field (VStr "A dataset"));
             (Some "save", Submit (VStr "draft")) ]
           [ (Some "save", Submit (VStr "publish")) ]
           "tags" (Field (VList [VStr "a"; VStr "b"]))
           (Some "save") (Some 1) VNone).
  - reflexivity.
  - discriminate.
  - reflexivity.
Defined.

(** The list value [[a, b]] of the specification: two entries, in that
    order, between the entries of the neighbouring fields. *)
Example list_valued_field_expands :
  webtest_submit_fields two_buttons (Some "save") (Some 1) VNone =
  Ok [ ("title", IVal (VStr "A dataset"));
       ("tags", IVal (VStr "a")); ("tags", IVal (VStr "b"));
       ("save", IVal (VStr "publish")) ].
Proof. reflexivity. Qed.

(** C8 as stated fails for a field that is not a submit button, has the
    value [None] and carries the submit name, such as an unchecked
    checkbox named like the button after it. It is not passed over in
    silence: being the first field of that name it is the one selected by
    default, and the call raises where the form without it returns; and
    selecting by index it is counted, so that index 1 reaches the button
    that would not be reached without it. *)
Lemma same_named_none_field_not_skipped :
  is_Submit (Field VNone) = false /\
  value (Field VNone) = VNone /\
  webtest_submit_fields unchecked_before_button (Some "save") None VNone
    = Raise (AttributeError "value_if_submitted") /\
  webtest_submit_fields button_alone (Some "save") None VNone
    = Ok [("save", IVal (VStr "draft"))] /\
  webtest_submit_fields unchecked_before_button (Some "save") (Some 1) VNone
    = Ok [("save", IVal (VStr "draft"))] /\
  webtest_submit_fields button_alone (Some "save") (Some 1) VNone
    = Ok [].
Proof. repeat split; reflexivity. Qed.

(** C8, amended. A field whose name is not the submit name of the call
    (any named field, when the call gives no name) and whose value is
    [None] contributes nothing: the call gives the same result, output
    list or exception, as on the form without that field. *)
Theorem none_valued_field_skipped (pre post : list (option string * field))
    (n : string) (f : field) (name : option string) (index : option Z)
    (submit_value : pyval) :
  is_submit_name name n = false ->
  value f = VNone ->
  webtest_submit_fields {| field_order := pre ++ (Some n, f) :: post |}
    name index submit_value =
  webtest_submit_fields {| field_order := pre ++ post |}
    name index submit_value.
Proof.
  intros Hn Hv. unfold webtest_submit_fields. cbn [field_order].
  destruct (_ && _); [done|].
  rewrite for_fields_insert, for_fields_app by done.
  destruct (for_fields name _ submit_value pre _) as [[o1 k1]|e]; [|done].
  cbn [mbind res_bind submit current_index].
  unfold value_entries. rewrite Hv. simpl. by rewrite app_nil_r.
Qed.

Lemma none_valued_field_skipped_witness :
  webtest_submit_fields
    {| field_order := [ (Some "title", Field (VStr "A dataset"));
                        (Some "notes", Field VNone);
                        (Some "save", Submit (VStr "draft")) ] |}
    (Some "save") None (VStr "draft") =
  webtest_submit_fields
    {| field_order := [ (Some "title", Field (VStr "A dataset"));
                        (Some "save", Submit (VStr "draft")) ] |}
    (Some "save") None (VStr "draft").
Proof.
  apply (none_valued_field_skipped
           [ (Some "title", Field (VStr "A dataset")) ]
           [ (Some "save", Submit (VStr "draft")) ]
           "notes" (Field VNone) (Some "save") None (VStr "draft")).
  - reflexivity.
  - reflexivity.
Defined.

(* ===================================================================== *)
(** ** call_auth and call_action *)
(* ===================================================================== *)

Lemma setdefault_lookup key dflt (d : dict) :
  setdefault key dflt d !! key = Some (default dflt (d !! key)).
Proof.
  unfold setdefault. destruct (d !! key) eqn:E; simpl; [done|].
  by rewrite lookup_insert_eq.
Qed.

Lemma setdefault_lookup_ne key dflt (d : dict) k :
  k <> key -> setdefault key dflt d !! k = d !! k.
Proof.
  intros Hne. unfold setdefault. destruct (d !! key); [done|].
  by rewrite lookup_insert_ne.
Qed.

Lemma setdefault_keeps key dflt (d : dict) k v :
  d !! k = Some v -> setdefault key dflt d !! k = Some v.
Proof.
  intros Hk. destruct (decide (k = key)) as [->|Hne].
  - by rewrite setdefault_lookup, Hk.
  - by rewrite setdefault_lookup_ne.
Qed.

Lemma call_action_some get_action action_name c kwargs (σ : store) d :
  σ !! c = Some d ->
  call_action get_action action_name (Some c) kwargs σ =
  match get_action action_name with
  | Ok action => action c kwargs (<[c := with_defaults d]> σ)
  | Raise e => (<[c := with_defaults d]> σ, Raise e)
  end.
Proof.
  intros Hc. unfold call_action, mbind, M_bind, mret, M_ret, dict_setdefault, lift.
  rewrite Hc, lookup_insert_eq, insert_insert_eq.
  fold (with_defaults d). by destruct (get_action action_name).
Qed.

Lemma call_action_none get_action action_name kwargs (σ : store) :
  call_action get_action action_name None kwargs σ =
  call_action get_action action_name (Some (fresh (dom σ))) kwargs
    (<[fresh (dom σ) := ∅]> σ).
Proof. done. Qed.

Lemma fresh_loc_unused (σ : store) : σ !! fresh (dom σ) = None.
Proof. apply not_elem_of_dom, is_fresh. Qed.

(** C4. On a context dict without the key [user] or without the key
    [model], [call_auth] raises [AssertionError] and leaves the store as
    it was, whatever auth functions exist: none is looked up or called.
    On a context with both keys, the call is the call of the auth
    function of that name on the same context dict and the keyword
    arguments, with its result and its effects. *)
Theorem call_auth_asserts_user_and_model
    (auth_update_getattribute : string -> res logic_function)
    (auth_name : string) (context : loc) (kwargs : dict) (σ : store)
    (d : dict) :
  σ !! context = Some d ->
  (d !! "user" = None \/ d !! "model" = None ->
   exists msg,
     call_auth auth_update_getattribute auth_name context kwargs σ =
     (σ, Raise (AssertionError msg))) /\
  (is_Some (d !! "user") -> is_Some (d !! "model") ->
   forall auth_function,
     auth_update_getattribute auth_name = Ok auth_function ->
     call_auth auth_update_getattribute auth_name context kwargs σ =
     auth_function context kwargs σ).
Proof.
  intros Hc. unfold call_auth, mbind, M_bind, dict_contains, raise, lift.
  rewrite Hc. split.
  - intros [Hu|Hm].
    + rewrite Hu, bool_decide_eq_false_2 by (by intros [? ?]). simpl. eauto.
    + destruct (bool_decide (is_Some (d !! "user"))); simpl; [|eauto].
      rewrite Hc, Hm, bool_decide_eq_false_2 by (by intros [? ?]).
      simpl. eauto.
  - intros Hu Hm auth_function Hf.
    rewrite bool_decide_eq_true_2 by done. simpl.
    rewrite Hc, bool_decide_eq_true_2 by done. simpl.
    by rewrite Hf.
Qed.

Lemma call_auth_asserts_user_and_model_witness :
  (exists msg,
     call_auth only_user_update "user_update" 0%nat ∅
       {[ 0%nat := context_without_model ]} =
     ({[ 0%nat := context_without_model ]}, Raise (AssertionError msg))) /\
  call_auth only_user_update "user_update" 0%nat ∅ {[ 0%nat := fred_context ]} =
  allow_all 0%nat ∅ {[ 0%nat := fred_context ]}.
Proof.
  assert (({[ 0%nat := context_without_model ]} : store) !! 0%nat
          = Some context_without_model) as H1 by reflexivity.
  assert (({[ 0%nat := fred_context ]} : store) !! 0%nat
          = Some fred_context) as H2 by reflexivity.
  split.
  - apply (proj1 (call_auth_asserts_user_and_model only_user_update
                    "user_update" 0%nat ∅ _ _ H1)).
    right. reflexivity.
  - apply (proj2 (call_auth_asserts_user_and_model only_user_update
                    "user_update" 0%nat ∅ _ _ H2)).
    + eexists. reflexivity.
    + eexists. reflexivity.
    + reflexivity.
Defined.

(** C5. [call_action] calls the action of the given name on a context
    dict [c] and the keyword arguments, and its result and effects are
    those of the action. [c] is the caller's dict if one was given and a
    new dict otherwise; when the action starts, that dict holds [user]
    and [ignore_auth], with the values ['127.0.0.1'] and [True] where the
    caller's dict ([d0], empty if none was given) had no such key, and
    every key of the caller's dict with its value; no other dict has
    changed. *)
Theorem call_action_injects_defaults
    (get_action : string -> res logic_function) (action_name : string)
    (context : option loc) (kwargs : dict) (σ : store) (d0 : dict)
    (action : logic_function) :
  match context with
  | Some c => σ !! c = Some d0
  | None => d0 = ∅
  end ->
  get_action action_name = Ok action ->
  exists (c : loc) (σ1 : store) (d1 : dict),
    call_action get_action action_name context kwargs σ = action c kwargs σ1 /\
    match context with
    | Some c0 => c = c0
    | None => σ !! c = None
    end /\
    σ1 !! c = Some d1 /\
    (forall l, l <> c -> σ1 !! l = σ !! l) /\
    d1 !! "user" = Some (default (VStr "127.0.0.1") (d0 !! "user")) /\
    d1 !! "ignore_auth" = Some (default (VBool true) (d0 !! "ignore_auth")) /\
    (forall k v, d0 !! k = Some v -> d1 !! k = Some v) /\
    (forall k, k <> "user" -> k <> "ignore_auth" -> d1 !! k = d0 !! k).
Proof.
  intros Hctx Hget.
  assert (exists c (σ0 : store),
            call_action get_action action_name context kwargs σ =
            call_action get_action action_name (Some c) kwargs σ0 /\
            match context with Some c0 => c = c0 | None => σ !! c = None end /\
            σ0 !! c = Some d0 /\
            (forall l, l <> c -> σ0 !! l = σ !! l)) as (c & σ0 & -> & Hc & Hd0 & Hl).
  { destruct context as [c0|].
    - by exists c0, σ.
    - subst d0. exists (fresh (dom σ)), (<[fresh (dom σ) := ∅]> σ).
      split; [apply call_action_none|]. split; [apply fresh_loc_unused|].
      split; [apply lookup_insert_eq|]. intros l Hne. by apply lookup_insert_ne. }
  exists c, (<[c := with_defaults d0]> σ0), (with_defaults d0).
  rewrite (call_action_some _ _ _ _ _ d0), Hget by done.
  split; [done|]. split; [done|]. split; [apply lookup_insert_eq|].
  split; [intros l Hne; rewrite lookup_insert_ne by done; by apply Hl|].
  unfold with_defaults. repeat split.
  - by rewrite setdefault_lookup_ne, setdefault_lookup.
  - by rewrite setdefault_lookup, setdefault_lookup_ne.
  - intros k v Hk. by do 2 apply setdefault_keeps.
  - intros k Hu Hi. by rewrite !setdefault_lookup_ne.
Qed.

Lemma call_action_injects_defaults_witness :
  exists (c : loc) (σ1 : store) (d1 : dict),
    call_action only_whoami "whoami" (Some 3%nat) ∅
      {[ 3%nat := {[ "session" := VObj 1 ]} ]} = whoami c ∅ σ1 /\
    c = 3%nat /\
    σ1 !! c = Some d1 /\
    (forall l, l <> c ->
       σ1 !! l = ({[ 3%nat := {[ "session" := VObj 1 ]} ]} : store) !! l) /\
    d1 !! "user" =
      Some (default (VStr "127.0.0.1")
              (({[ "session" := VObj 1 ]} : dict) !! "user")) /\
    d1 !! "ignore_auth" =
      Some (default (VBool true)
              (({[ "session" := VObj 1 ]} : dict) !! "ignore_auth")) /\
    (forall k v, ({[ "session" := VObj 1 ]} : dict) !! k = Some v ->
                 d1 !! k = Some v) /\
    (forall k, k <> "user" -> k <> "ignore_auth" ->
               d1 !! k = ({[ "session" := VObj 1 ]} : dict) !! k).
Proof.
  apply (call_action_injects_defaults only_whoami "whoami" (Some 3%nat) ∅
           {[ 3%nat := {[ "session" := VObj 1 ]} ]}
           {[ "session" := VObj 1 ]} whoami).
  - reflexivity.
  - reflexivity.
Defined.

(** Without a context the action runs as the anonymous local user. *)
Example call_action_default_user :
  (call_action only_whoami "whoami" None ∅ ∅).2 = Ok (VStr "127.0.0.1").
Proof. reflexivity. Qed.




(* ===================================================================== *)
(** ** The configuration around a test class *)
(* ===================================================================== *)

Lemma update_empty (original : dict) : update original ∅ = original.
Proof. unfold update. apply (right_id_L ∅ (∪)). Qed.

(** [setup_class] stores the configuration it found, however far it
    gets. *)
Lemma setup_class_snapshot hook make_app TestApp (w : world) :
  original_config (setup_class hook make_app TestApp w).1 = Some (config w).
Proof.
  unfold setup_class. destruct (hook (config w)) as [cfg [[]|e]]; [|done].
  by destruct (_get_test_app make_app TestApp cfg) as [cfg' [a|e]].
Qed.

Lemma run_tests_original_config ms (w : world) :
  original_config (run_tests ms w) = original_config w.
Proof. done. Qed.

(** C7. Whatever the hook [_apply_config_changes], the application
    factory and the tests do to the keys of the global configuration
    after [setup_class] has started, [teardown_class] succeeds and leaves
    the configuration equal to the mapping [setup_class] found. *)
Theorem teardown_class_restores_config
    (hook : dict -> dict * res unit)
    (make_app : pyval -> dict -> dict -> dict * res pyval)
    (TestApp : pyval -> pyval) (ms : list mutation) (w : world) :
  (teardown_class (run_tests ms (setup_class hook make_app TestApp w).1)).2
    = Ok tt /\
  config
    (teardown_class (run_tests ms (setup_class hook make_app TestApp w).1)).1
    = config w.
Proof.
  unfold teardown_class.
  rewrite run_tests_original_config, setup_class_snapshot.
  split; [done|]. simpl. apply update_empty.
Qed.

Example lifecycle_run :
  let w0 := {| config := ini; original_config := None; app := None |} in
  let w1 := (setup_class pass (fun _ _ cfg => (cfg, Ok (VObj 1))) id w0).1 in
  let w2 := run_tests [ DelItem "global_conf";
                        SetItem "ckan.site_id" (VStr "test");
                        SetItem "ckan.plugins" (VStr "stats") ] w1 in
  config w1 !! "ckan.legacy_templates" = Some (VBool false) /\
  config w2 !! "global_conf" = None /\
  config w2 !! "ckan.site_id" = Some (VStr "test") /\
  config (teardown_class w2).1 = ini.
Proof.
  simpl. repeat split.
Qed.

(* ===================================================================== *)
(** * Further properties of the helpers *)
(* ===================================================================== *)

(** ** Selection of the submit button *)

(** Selecting by index looks at one field only: [value_if_submitted] is
    called on the same-named field at position [i], if there is one, and
    the other same-named fields are merely counted. *)
Lemma for_fields_index_counts s i fields : forall st,
  (forall f,
     (if decide (current_index st <= i)
      then same_named s fields !! Z.to_nat (i - current_index st)
      else None) = Some f -> is_Submit f = true) ->
  exists st',
    for_fields (Some s) (Some i) VNone fields st = Ok st' /\
    entries_named s (submit st') =
      entries_named s (submit st) ++
      match (if decide (current_index st <= i)
             then same_named s fields !! Z.to_nat (i - current_index st)
             else None) with
      | Some (Submit w) => [(s, IVal w)]
      | _ => []
      end.
Proof.
  induction fields as [|[[n|] f] rest IH]; intros st Hsel.
  - exists st. split; [done|]. simpl. case_decide; by rewrite app_nil_r.
  - cbn [same_named] in *. destruct (String.eqb n s) eqn:En.
    + apply String.eqb_eq in En as ->. cbn [for_fields].
      destruct (Z.eqb_spec (current_index st) i) as [Heq|Hne].
      * assert (is_Submit f = true) as Hf.
        { apply Hsel. rewrite decide_True by lia.
          by replace (Z.to_nat (i - current_index st)) with 0%nat by lia. }
        destruct f as [w| |]; try done.
        rewrite loop_body_button_index. cbn [mbind res_bind].
        destruct (IH {| submit := if current_index st =? i
                                  then submit st ++ [(s, IVal w)]
                                  else submit st;
                        current_index := current_index st + 1 |})
          as (st' & -> & Hst').
        { cbn [current_index]. intros f. by rewrite decide_False by lia. }
        exists st'. split; [done|]. rewrite Hst'. cbn [submit current_index].
        rewrite decide_False by lia. rewrite decide_True by lia.
        replace (Z.to_nat (i - current_index st)) with 0%nat by lia.
        replace (current_index st =? i) with true by (symmetry; lia).
        simpl. rewrite app_nil_r, entries_named_app.
        f_equal. unfold entries_named.
        by rewrite filter_cons, decide_True by done.
      * assert (loop_body (Some s) (Some i) VNone st (Some s, f) =
                Ok {| submit := submit st;
                      current_index := current_index st + 1 |}) as ->.
        { simpl. rewrite String.eqb_refl.
          by replace (current_index st =? i) with false by (symmetry; lia). }
        cbn [mbind res_bind].
        destruct (IH {| submit := submit st;
                        current_index := current_index st + 1 |})
          as (st' & -> & Hst').
        { cbn [current_index]. intros g Hg. apply Hsel.
          destruct (decide (current_index st + 1 <= i)); [|done].
          rewrite decide_True by lia.
          replace (Z.to_nat (i - current_index st))
            with (S (Z.to_nat (i - (current_index st + 1)))) by lia.
          done. }
        exists st'. split; [done|]. rewrite Hst'. cbn [submit current_index].
        f_equal. destruct (decide (current_index st <= i)).
        -- rewrite decide_True by lia.
           replace (Z.to_nat (i - current_index st))
             with (S (Z.to_nat (i - (current_index st + 1)))) by lia.
           done.
        -- by rewrite decide_False by lia.
    + cbn [for_fields]. rewrite loop_body_other by (simpl; by rewrite En).
      cbn [mbind res_bind].
      destruct (IH {| submit := submit st ++ value_entries n f;
                      current_index := current_index st |} Hsel)
        as (st' & -> & Hst').
      exists st'. split; [done|]. rewrite Hst'. cbn [submit current_index].
      rewrite entries_named_app, entries_named_value_entries, app_nil_r;
        [done|].
      intros ->. by rewrite String.eqb_refl in En.
  - cbn [for_fields same_named loop_body mbind res_bind] in *. by apply IH.
Qed.

(** X1. The index counts every field that carries the submit name,
    button or not: when the field at position [i] among them is a button,
    the call returns and the entries under that name are the one entry
    with that button's value, whatever the other fields of that name
    are. *)
Theorem index_counts_all_same_named_fields (form : form) (s : string) (i : Z)
    (v : pyval) :
  0 <= i ->
  same_named s (field_order form) !! Z.to_nat i = Some (Submit v) ->
  exists out,
    webtest_submit_fields form (Some s) (Some i) VNone = Ok out /\
    entries_named s out = [(s, IVal v)].
Proof.
  intros Hpos Hi. unfold webtest_submit_fields. simpl.
  destruct (for_fields_index_counts s i (field_order form)
              {| submit := []; current_index := 0 |}) as (st' & -> & Hout).
  { cbn [current_index]. rewrite decide_True, Z.sub_0_r, Hi by done.
    by intros f [= <-]. }
  exists (submit st'). cbn [submit current_index] in Hout.
  by rewrite decide_True, Z.sub_0_r, Hi in Hout by done.
Qed.

Lemma index_counts_all_same_named_fields_witness :
  exists out,
    webtest_submit_fields text_among_buttons (Some "save") (Some 1) VNone
      = Ok out /\
    entries_named "save" out = [("save", IVal (VStr "draft"))].
Proof.
  apply (index_counts_all_same_named_fields text_among_buttons "save" 1
           (VStr "draft")).
  - lia.
  - reflexivity.
Defined.

(** X2. An index that is negative or not below the number of fields with
    the submit name selects nothing: the call returns, without an entry
    under that name and without an error. *)
Theorem index_out_of_range_selects_nothing (form : form) (s : string)
    (i : Z) :
  i < 0 \/ Z.of_nat (length (same_named s (field_order form))) <= i ->
  exists out,
    webtest_submit_fields form (Some s) (Some i) VNone = Ok out /\
    entries_named s out = [].
Proof.
  intros Hi. unfold webtest_submit_fields. simpl.
  assert ((if decide (0 <= i)
           then same_named s (field_order form) !! Z.to_nat (i - 0)
           else None) = None) as Hnone.
  { destruct (decide (0 <= i)); [|done].
    apply lookup_ge_None. lia. }
  destruct (for_fields_index_counts s i (field_order form)
              {| submit := []; current_index := 0 |}) as (st' & -> & Hout).
  { cbn [current_index]. by rewrite Hnone. }
  exists (submit st'). cbn [submit current_index] in Hout.
  by rewrite Hnone in Hout.
Qed.

Lemma index_out_of_range_selects_nothing_witness :
  exists out,
    webtest_submit_fields two_buttons (Some "save") (Some 2) VNone = Ok out /\
    entries_named "save" out = [].
Proof.
  apply (index_out_of_range_selects_nothing two_buttons "save" 2).
  right. simpl. lia.
Defined.

(** X3. A call with a name and neither index nor submit value selects
    the first field of that name: when that field is a button, the
    entries under the name are the one entry with its value. *)
Theorem name_alone_selects_first_button (form : form) (s : string)
    (v : pyval) :
  same_named s (field_order form) !! 0%nat = Some (Submit v) ->
  exists out,
    webtest_submit_fields form (Some s) None VNone = Ok out /\
    entries_named s out = [(s, IVal v)].
Proof.
  intros H0. unfold webtest_submit_fields. simpl.
  assert ((if decide (0 <= 0)
           then same_named s (field_order form) !! Z.to_nat (0 - 0)
           else None) = Some (Submit v)) as Hsel
    by (rewrite decide_True by done; exact H0).
  destruct (for_fields_index_counts s 0 (field_order form)
              {| submit := []; current_index := 0 |}) as (st' & -> & Hout).
  { cbn [current_index]. rewrite Hsel. by intros f [= <-]. }
  exists (submit st'). cbn [submit current_index] in Hout.
  by rewrite Hsel in Hout.
Qed.

Lemma name_alone_selects_first_button_witness :
  exists out,
    webtest_submit_fields two_buttons (Some "save") None VNone = Ok out /\
    entries_named "save" out = [("save", IVal (VStr "draft"))].
Proof.
  apply (name_alone_selects_first_button two_buttons "save" (VStr "draft")).
  reflexivity.
Defined.

(** Selecting by value on buttons: every button of that name whose value
    equals the submit value adds an entry. *)
Lemma for_fields_by_value s v fields : forall st,
  Forall (fun f => is_Submit f = true) (same_named s fields) ->
  v <> VNone ->
  exists st',
    for_fields (Some s) None v fields st = Ok st' /\
    entries_named s (submit st') =
      entries_named s (submit st) ++
      replicate (length (List.filter (submits v) (same_named s fields)))
                (s, IVal v).
Proof.
  induction fields as [|[[n|] f] rest IH]; intros st Hb Hv.
  - exists st. split; [done|]. simpl. by rewrite app_nil_r.
  - cbn [same_named] in *. destruct (String.eqb n s) eqn:En.
    + apply String.eqb_eq in En as ->.
      apply Forall_cons in Hb as [Hf Hb]. destruct f as [w| |]; try done.
      cbn [for_fields]. rewrite loop_body_button_value by done.
      cbn [mbind res_bind List.filter submits].
      destruct (IH {| submit := if pyval_eqb w v
                                then submit st ++ [(s, IVal w)] else submit st;
                      current_index := current_index st + 1 |} Hb Hv)
        as (st' & -> & Hst').
      exists st'. split; [done|]. rewrite Hst'. cbn [submit].
      destruct (pyval_eqb w v) eqn:Ew; [|done].
      apply pyval_eqb_eq in Ew as ->.
      rewrite entries_named_app, <- app_assoc. f_equal.
      unfold entries_named. by rewrite filter_cons, decide_True by done.
    + cbn [for_fields]. rewrite loop_body_other by (simpl; by rewrite En).
      cbn [mbind res_bind].
      destruct (IH {| submit := submit st ++ value_entries n f;
                      current_index := current_index st |} Hb Hv)
        as (st' & -> & Hst').
      exists st'. split; [done|]. rewrite Hst'. cbn [submit].
      rewrite entries_named_app, entries_named_value_entries, app_nil_r;
        [done|].
      intros ->. by rewrite String.eqb_refl in En.
  - cbn [for_fields same_named loop_body mbind res_bind] in *. by apply IH.
Qed.

(** X4. Selecting by value on a form whose fields of the submit name are
    buttons: the call returns, and under that name the output has one
    entry with the submit value for every button of that name whose value
    equals it. Two buttons with the same value give two entries; a value
    that no button has gives none. *)
Theorem submit_by_value_selects_every_match (form : form) (s : string)
    (v : pyval) :
  Forall (fun f => is_Submit f = true) (same_named s (field_order form)) ->
  v <> VNone ->
  exists out,
    webtest_submit_fields form (Some s) None v = Ok out /\
    entries_named s out =
      replicate
        (length (List.filter (submits v) (same_named s (field_order form))))
        (s, IVal v).
Proof.
  intros Hb Hv. unfold webtest_submit_fields. simpl.
  rewrite (is_None_false v Hv). simpl.
  destruct (for_fields_by_value s v (field_order form)
              {| submit := []; current_index := 0 |} Hb Hv)
    as (st' & -> & Hout).
  by exists (submit st').
Qed.

Lemma submit_by_value_selects_every_match_witness :
  exists out,
    webtest_submit_fields
      {| field_order := [ (Some "save", Submit (VStr "draft"));
                          (Some "save", Submit (VStr "publish"));
                          (Some "save", Submit (VStr "draft")) ] |}
      (Some "save") None (VStr "draft") = Ok out /\
    entries_named "save" out =
      replicate 2 ("save", IVal (VStr "draft")).
Proof.
  apply (submit_by_value_selects_every_match
           {| field_order := [ (Some "save", Submit (VStr "draft"));
                               (Some "save", Submit (VStr "publish"));
                               (Some "save", Submit (VStr "draft")) ] |}
           "save" (VStr "draft")).
  - repeat constructor.
  - discriminate.
Defined.

Lemma filter_all {A} (P : A -> Prop) `{forall x, Decision (P x)} (l : list A) :
  (forall x, x ∈ l -> P x) -> filter P l = l.
Proof.
  induction l as [|a l IH]; intros Hl; [done|].
  rewrite filter_cons, decide_True by (apply Hl; left).
  f_equal. apply IH. intros x Hx. apply Hl. by right.
Qed.

(** What the submit branch appends carries the submit name. *)
Lemma loop_body_submit_branch s index sv st f st1 :
  loop_body (Some s) index sv st (Some s, f) = Ok st1 ->
  exists extra,
    submit st1 = submit st ++ extra /\
    forall e, e ∈ extra -> e.1 = s.
Proof.
  simpl. rewrite String.eqb_refl.
  destruct (index_selected index (current_index st)), (is_None sv),
    (value_if_submitted f) as [w|err]; simpl; try done;
    try destruct (pyval_eqb w sv); simpl; intros [= <-]; simpl.
  all: try (exists []; rewrite app_nil_r; split; [done|];
            by intros e ?%elem_of_nil).
  all: try (exists [(s, IVal w)]; split; [done|];
            by intros e ->%list_elem_of_singleton).
  exists [(s, IVal w); (s, IVal w)]. rewrite <- app_assoc. split; [done|].
  intros e He. apply elem_of_cons in He as [->|He]; [done|].
  by apply list_elem_of_singleton in He as ->.
Qed.

(** The entries under other names than the submit name come from the
    fields with other names alone. *)
Lemma for_fields_other_names s index sv fields : forall st st',
  for_fields (Some s) index sv fields st = Ok st' ->
  filter (fun e : entry => e.1 <> s) (submit st') =
  filter (fun e : entry => e.1 <> s) (submit st) ++
  flat_map entries_of
    (filter (fun nf : option string * field => nf.1 <> Some s) fields).
Proof.
  induction fields as [|[[n|] f] rest IH]; intros st st' Hrun.
  - injection Hrun as <-. simpl. by rewrite app_nil_r.
  - cbn [for_fields] in Hrun. rewrite filter_cons.
    destruct (String.eqb n s) eqn:En.
    + apply String.eqb_eq in En as ->.
      destruct (loop_body (Some s) index sv st (Some s, f)) as [st1|e] eqn:Eb;
        [|done].
      cbn [mbind res_bind] in Hrun.
      apply loop_body_submit_branch in Eb as (extra & Hsub & Hextra).
      rewrite (IH _ _ Hrun), Hsub, filter_app.
      rewrite (filter_none _ extra), app_nil_r, decide_False; [done| |].
      * simpl. by intros H; apply H.
      * intros e He Hne. by apply Hne, Hextra.
    + assert (n <> s) as Hns by (intros ->; by rewrite String.eqb_refl in En).
      rewrite loop_body_other in Hrun by (simpl; by rewrite En).
      cbn [mbind res_bind] in Hrun.
      rewrite (IH _ _ Hrun). cbn [submit].
      rewrite decide_True by (simpl; congruence).
      cbn [flat_map entries_of fst snd]. rewrite filter_app, <- app_assoc.
      do 2 f_equal. apply filter_all.
      intros e He%value_entries_name. simpl. congruence.
  - cbn [for_fields loop_body mbind res_bind] in Hrun.
    rewrite filter_cons, decide_True by done.
    cbn [flat_map entries_of fst]. by apply IH.
Qed.

Lemma webtest_submit_fields_Ok form name index sv out :
  webtest_submit_fields form name index sv = Ok out ->
  exists index' st',
    for_fields name index' sv (field_order form)
      {| submit := []; current_index := 0 |} = Ok st' /\
    submit st' = out.
Proof.
  unfold webtest_submit_fields. destruct (_ && _); [done|].
  match goal with
  | |- context [for_fields name ?i sv (field_order form) ?st] =>
      destruct (for_fields name i sv (field_order form) st) as [st'|e] eqn:E;
        [|done]; intros [= <-]; by exists i, st'
  end.
Qed.

(** X5. Which button is selected has no effect on the rest of the output:
    for a call that gives at most one of index and submit value, on a
    form whose fields of the submit name are buttons, the entries under
    all other names are those of the fields with other names, in
    declaration order, whatever index or value was given. *)
Theorem selection_leaves_other_names (form : form) (s : string)
    (index : option Z) (submit_value : pyval) :
  index = None \/ submit_value = VNone ->
  Forall (fun f => is_Submit f = true) (same_named s (field_order form)) ->
  exists out,
    webtest_submit_fields form (Some s) index submit_value = Ok out /\
    filter (fun e : entry => e.1 <> s) out =
    flat_map entries_of
      (filter (fun nf : option string * field => nf.1 <> Some s)
              (field_order form)).
Proof.
  intros Hone Hb.
  destruct (webtest_submit_fields_returns form (Some s) index submit_value
              Hone) as [out Hout].
  { by intros ? [= <-]. }
  exists out. split; [done|].
  apply webtest_submit_fields_Ok in Hout as (index' & st' & Hrun & <-).
  by rewrite (for_fields_other_names _ _ _ _ _ _ Hrun).
Qed.

Lemma selection_leaves_other_names_witness :
  exists out,
    webtest_submit_fields two_buttons (Some "save") None (VStr "publish")
      = Ok out /\
    filter (fun e : entry => e.1 <> "save") out =
    flat_map entries_of
      (filter (fun nf : option string * field => nf.1 <> Some "save")
              (field_order two_buttons)).
Proof.
  apply (selection_leaves_other_names two_buttons "save" None
           (VStr "publish")).
  - left. reflexivity.
  - repeat constructor.
Defined.

(** X6. A field without a name is passed over: the call gives the same
    result, output list or exception, as on the form without it, whatever
    the field is and whichever button is selected. *)
Theorem unnamed_field_skipped (pre post : list (option string * field))
    (f : field) (name : option string) (index : option Z)
    (submit_value : pyval) :
  webtest_submit_fields {| field_order := pre ++ (None, f) :: post |}
    name index submit_value =
  webtest_submit_fields {| field_order := pre ++ post |}
    name index submit_value.
Proof.
  unfold webtest_submit_fields. cbn [field_order].
  destruct (_ && _); [done|].
  rewrite !for_fields_app.
  by destruct (for_fields name _ submit_value pre _) as [st1|e].
Qed.

(** ** webtest_submit *)

(** X7. [webtest_submit] with both an index and a value raises the
    [ValueError] of the field collection, whatever the request function
    is: no request is made. *)
Theorem webtest_submit_conflict_makes_no_request
    (goto : string -> string -> list entry -> dict -> res pyval)
    (form : html_form) (name : option string) (i : Z) (value : pyval)
    (args : dict) :
  value <> VNone ->
  webtest_submit goto form name (Some i) value args =
  Raise (ValueError "Can't specify both submit_value and index.").
Proof.
  intros Hv. unfold webtest_submit, webtest_submit_fields.
  by rewrite (is_None_false _ Hv).
Qed.

Lemma webtest_submit_conflict_makes_no_request_witness :
  webtest_submit goto_ok post_form (Some "save") (Some 0) (VStr "draft") ∅ =
  Raise (ValueError "Can't specify both submit_value and index.").
Proof.
  apply (webtest_submit_conflict_makes_no_request goto_ok post_form
           (Some "save") 0 (VStr "draft") ∅).
  discriminate.
Defined.





(** X10. An extra argument named [method] or [params] collides with the
    keywords the helper itself passes to the request: once the fields
    are collected the call fails with [TypeError], and no request is
    made. *)
Theorem webtest_submit_reserved_argument
    (goto : string -> string -> list entry -> dict -> res pyval)
    (form : html_form) (name : option string) (index : option Z)
    (value : pyval) (args : dict) (fields : list entry) :
  webtest_submit_fields (form_fields form) name index value = Ok fields ->
  is_Some (args !! "method") \/ is_Some (args !! "params") ->
  webtest_submit goto form name index value args =
  Raise (OtherError "TypeError").
Proof.
  intros Hfields Hres. unfold webtest_submit.
  rewrite Hfields. cbn [mbind res_bind].
  assert (forall a : dict,
            (a = args \/ a = setdefault "content_type" (enctype form) args) ->
            bool_decide (is_Some (a !! "method"))
            || bool_decide (is_Some (a !! "params")) = true) as Hor.
  { intros a Ha.
    assert (a !! "method" = args !! "method" /\
            a !! "params" = args !! "params") as [-> ->]
      by (destruct Ha as [->| ->]; by rewrite ?setdefault_lookup_ne).
    apply orb_true_iff.
    destruct Hres; [left|right]; by apply bool_decide_eq_true_2. }
  destruct (negb _); by rewrite Hor by auto.
Qed.

Lemma webtest_submit_reserved_argument_witness :
  webtest_submit goto_ok post_form (Some "save") (Some 1) VNone
    {[ "method" := VStr "PUT" ]} =
  Raise (OtherError "TypeError").
Proof.
  apply (webtest_submit_reserved_argument goto_ok post_form
           (Some "save") (Some 1) VNone {[ "method" := VStr "PUT" ]}
           [ ("title", IVal (VStr "A dataset"));
             ("tags", IVal (VStr "a")); ("tags", IVal (VStr "b"));
             ("save", IVal (VStr "publish")) ]).
  - reflexivity.
  - left. eexists. reflexivity.
Defined.

(** X17. An extra argument named [href] is a second value for the
    first parameter of the request function, which the helper gives by
    position: once the fields are collected the call fails with
    [TypeError], and no request is made, whatever the method of the form
    is. *)
Theorem webtest_submit_href_argument
    (goto : string -> string -> list entry -> dict -> res pyval)
    (form : html_form) (name : option string) (index : option Z)
    (value : pyval) (args : dict) (fields : list entry) :
  webtest_submit_fields (form_fields form) name index value = Ok fields ->
  is_Some (args !! "href") ->
  webtest_submit goto form name index value args =
  Raise (OtherError "TypeError").
Proof.
  intros Hfields Hh. unfold webtest_submit.
  rewrite Hfields. cbn [mbind res_bind].
  assert (forall a : dict,
            (a = args \/ a = setdefault "content_type" (enctype form) args) ->
            bool_decide (is_Some (a !! "href")) = true) as Hhref.
  { intros a Ha.
    assert (a !! "href" = args !! "href") as ->
      by (destruct Ha as [->| ->]; by rewrite ?setdefault_lookup_ne).
    by apply bool_decide_eq_true_2. }
  destruct (negb _); rewrite Hhref by auto; by rewrite orb_true_r.
Qed.

Lemma webtest_submit_href_argument_witness :
  webtest_submit goto_ok get_form (Some "save") (Some 1) VNone
    {[ "href" := VStr "/elsewhere" ]} =
  Raise (OtherError "TypeError").
Proof.
  apply (webtest_submit_href_argument goto_ok get_form
           (Some "save") (Some 1) VNone {[ "href" := VStr "/elsewhere" ]}
           [ ("title", IVal (VStr "A dataset"));
             ("tags", IVal (VStr "a")); ("tags", IVal (VStr "b"));
             ("save", IVal (VStr "publish")) ]).
  - reflexivity.
  - eexists. reflexivity.
Defined.

(** ** The test application and the lifecycle of a test class *)

(** X11. Without the key [global_conf] in the configuration,
    [_get_test_app] raises [KeyError] before the application is built
    (whatever [make_app] is), and by then it has already set
    [ckan.legacy_templates] to [False] in the global configuration. *)
Theorem get_test_app_without_global_conf
    (make_app : pyval -> dict -> dict -> dict * res pyval)
    (TestApp : pyval -> pyval) (cfg : dict) :
  cfg !! "global_conf" = None ->
  exists cfg' : dict,
    _get_test_app make_app TestApp cfg = (cfg', Raise (KeyError "global_conf")) /\
    cfg' !! "ckan.legacy_templates" = Some (VBool false) /\
    forall k, k <> "ckan.legacy_templates" -> cfg' !! k = cfg !! k.
Proof.
  intros Hg. exists (<["ckan.legacy_templates" := VBool false]> cfg).
  unfold _get_test_app. rewrite lookup_insert_ne, Hg by done.
  split; [done|]. split; [apply lookup_insert_eq|].
  intros k Hk. by apply lookup_insert_ne.
Qed.

Lemma get_test_app_without_global_conf_witness :
  exists cfg' : dict,
    _get_test_app (fun _ _ cfg => (cfg, Ok (VObj 1))) id
      {[ "ckan.site_id" := VStr "default" ]}
      = (cfg', Raise (KeyError "global_conf")) /\
    cfg' !! "ckan.legacy_templates" = Some (VBool false) /\
    forall k, k <> "ckan.legacy_templates" ->
              cfg' !! k = ({[ "ckan.site_id" := VStr "default" ]} : dict) !! k.
Proof.
  apply (get_test_app_without_global_conf (fun _ _ cfg => (cfg, Ok (VObj 1)))
           id {[ "ckan.site_id" := VStr "default" ]}).
  reflexivity.
Defined.

(** X12. [teardown_class] on a class whose [setup_class] never ran has no
    snapshot to restore: it raises [AttributeError], and the global
    configuration is left empty, because it is cleared first. *)
Theorem teardown_class_without_setup_empties_config (w : world) :
  original_config w = None ->
  (teardown_class w).2 = Raise (AttributeError "original_config") /\
  config (teardown_class w).1 = ∅.
Proof. intros Hw. unfold teardown_class. by rewrite Hw. Qed.

Lemma teardown_class_without_setup_empties_config_witness :
  (teardown_class {| config := ini; original_config := None; app := None |}).2
    = Raise (AttributeError "original_config") /\
  config
    (teardown_class {| config := ini; original_config := None; app := None |}).1
    = ∅.
Proof.
  apply (teardown_class_without_setup_empties_config
           {| config := ini; original_config := None; app := None |}).
  reflexivity.
Defined.

Lemma teardown_class_config (w : world) original :
  original_config w = Some original ->
  teardown_class w = (set_config original w, Ok tt).
Proof.
  intros Hw. unfold teardown_class. by rewrite Hw, update_empty.
Qed.

(** X13. Test classes run one after the other do not leak configuration
    into each other: after the set-up, tests and tear-down of one class
    followed by those of a second class, with any hooks, application
    factories and tests, the configuration is the one found before the
    first class started. *)
Theorem two_test_classes_restore_config
    (hook1 hook2 : dict -> dict * res unit)
    (make_app1 make_app2 : pyval -> dict -> dict -> dict * res pyval)
    (TestApp : pyval -> pyval) (ms1 ms2 : list mutation) (w : world) :
  config
    (teardown_class
       (run_tests ms2
          (setup_class hook2 make_app2 TestApp
             (teardown_class
                (run_tests ms1 (setup_class hook1 make_app1 TestApp w).1)).1).1)).1
  = config w.
Proof.
  rewrite (teardown_class_config (run_tests ms2 _) (config w)).
  - done.
  - rewrite run_tests_original_config, setup_class_snapshot.
    rewrite (teardown_class_config (run_tests ms1 _) (config w)); [done|].
    by rewrite run_tests_original_config, setup_class_snapshot.
Qed.

(** X14. The snapshot outlives [teardown_class]: the class attribute is
    never removed, so once a tear-down has succeeded, a further
    [teardown_class] after any further changes to the configuration
    succeeds too and gives the same configuration again. *)
Theorem teardown_class_repeatable (ms : list mutation) (w : world)
    (original : dict) :
  original_config w = Some original ->
  (teardown_class (run_tests ms (teardown_class w).1)).2 = Ok tt /\
  config (teardown_class (run_tests ms (teardown_class w).1)).1 =
  config (teardown_class w).1.
Proof.
  intros Hw. rewrite (teardown_class_config w original Hw). simpl.
  by rewrite (teardown_class_config _ original).
Qed.

Lemma teardown_class_repeatable_witness :
  (teardown_class
     (run_tests [Clear; SetItem "debug" (VBool true)]
        (teardown_class
           {| config := ∅; original_config := Some ini; app := None |}).1)).2
    = Ok tt /\
  config
    (teardown_class
       (run_tests [Clear; SetItem "debug" (VBool true)]
          (teardown_class
             {| config := ∅; original_config := Some ini; app := None |}).1)).1
  = config
      (teardown_class
         {| config := ∅; original_config := Some ini; app := None |}).1.
Proof.
  apply (teardown_class_repeatable [Clear; SetItem "debug" (VBool true)]
           {| config := ∅; original_config := Some ini; app := None |} ini).
  reflexivity.
Defined.

(** ** reset_db and the per-test setup *)

(** X15. The per-test [setup] of the base class resets the database
    exactly as [reset_db] does, for every behaviour of the database
    layer; and in both, when closing the sessions raises, the database is
    not rebuilt and the exception is passed on. *)
Theorem setup_is_reset_db (db : Type)
    (close_all rebuild_db : db -> db * res unit) (d : db) :
  setup db close_all rebuild_db d = reset_db db close_all rebuild_db d /\
  forall d' e,
    close_all d = (d', Raise e) ->
    reset_db db close_all rebuild_db d = (d', Raise e).
Proof.
  split; [done|]. intros d' e Hc. unfold reset_db. by rewrite Hc.
Qed.

Lemma setup_is_reset_db_witness :
  setup nat (fun d => (d, Raise (OtherError "connection busy")))
    (fun d => (S d, Ok tt)) 0%nat =
  reset_db nat (fun d => (d, Raise (OtherError "connection busy")))
    (fun d => (S d, Ok tt)) 0%nat /\
  reset_db nat (fun d => (d, Raise (OtherError "connection busy")))
    (fun d => (S d, Ok tt)) 0%nat =
  (0%nat, Raise (OtherError "connection busy")).
Proof.
  destruct (setup_is_reset_db nat
              (fun d => (d, Raise (OtherError "connection busy")))
              (fun d => (S d, Ok tt)) 0%nat) as [Hsame Hraise].
  split; [exact Hsame|]. apply Hraise. reflexivity.
Defined.

(** ** call_auth *)

(** X16. [call_auth] with a name that is no attribute of the auth module
    passes on the exception of the look-up and leaves the store as it
    was, even on a context that has both required keys. *)
Theorem call_auth_unknown_name
    (auth_update_getattribute : string -> res logic_function)
    (auth_name : string) (context : loc) (kwargs : dict) (σ : store)
    (d : dict) (e : exn) :
  σ !! context = Some d ->
  is_Some (d !! "user") -> is_Some (d !! "model") ->
  auth_update_getattribute auth_name = Raise e ->
  call_auth auth_update_getattribute auth_name context kwargs σ =
  (σ, Raise e).
Proof.
  intros Hc Hu Hm He.
  unfold call_auth, mbind, M_bind, dict_contains, raise, lift.
  rewrite Hc, bool_decide_eq_true_2 by done. simpl.
  rewrite Hc, bool_decide_eq_true_2 by done. simpl.
  by rewrite He.
Qed.

Lemma call_auth_unknown_name_witness :
  call_auth only_user_update "user_delete" 0%nat ∅
    {[ 0%nat := fred_context ]} =
  ({[ 0%nat := fred_context ]}, Raise (AttributeError "user_delete")).
Proof.
  assert (({[ 0%nat := fred_context ]} : store) !! 0%nat
          = Some fred_context) as Hc by reflexivity.
  apply (call_auth_unknown_name only_user_update "user_delete" 0%nat ∅ _
           fred_context (AttributeError "user_delete") Hc).
  - eexists. reflexivity.
  - eexists. reflexivity.
  - reflexivity.
Defined.
